(** * BasePostmanTool (src/tools/api/base.ts)

    A shallow embedding of the base class of the Postman API tools: the
    provisioning of the axios client in the constructor, the response
    interceptor that translates transport failures into [McpError]s, and the
    tool and resource discovery hooks.

    JavaScript values are embedded as a JSON-like tree, objects as finite
    maps.  The axios instances live in a store addressed by references, since
    the constructor may receive an instance that other tools already hold and
    registers its interceptors on that very object.  Thrown values are an
    explicit result ([Throw]); [console] output is part of the state. *)

From Stdlib Require Import ZArith.
From stdpp Require Import base option strings list gmap fin_maps.

Open Scope Z_scope.
Open Scope string_scope.

(** ** JavaScript values *)

(** The values a parsed response body (or any [any]-typed expression of the
    source) can take.  Numbers are kept integral: the source only compares
    them and tests their truthiness. *)
#[local] Unset Elimination Schemes.
Inductive JSValue : Type :=
  | JUndefined
  | JNull
  | JBool (b : bool)
  | JNum (n : Z)
  | JStr (s : string)
  | JArr (items : list JSValue)
  | JObj (props : gmap string JSValue).
#[local] Set Elimination Schemes.

(** ToBoolean: what [if (v)], [!v] and [v || w] test. *)
Definition truthy (v : JSValue) : bool :=
  match v with
  | JUndefined | JNull => false
  | JBool b => b
  | JNum n => negb (Z.eqb n 0)
  | JStr s => negb (String.eqb s "")
  | JArr _ | JObj _ => true
  end.

(** [a || b] *)
Definition js_or (a b : JSValue) : JSValue := if truthy a then a else b.

(** [v?.k]: [undefined] when [v] is [null] or [undefined]; an own property of
    an object otherwise.  Primitives and arrays have no property named
    [error] or [message], the only names the source reads this way. *)
Definition opt_get (v : JSValue) (k : string) : JSValue :=
  match v with
  | JObj props => default JUndefined (props !! k)
  | _ => JUndefined
  end.

(** An optional string ([s?: string], [string | null]) read as a value. *)
Definition of_opt_string (o : option string) : JSValue :=
  match o with
  | Some s => JStr s
  | None => JUndefined
  end.

(** [o] when it is a truthy (non-empty) string: the test of [if (o)], [!o]
    and [o || d] on an optional string. *)
Definition truthy_string (o : option string) : option string :=
  match o with
  | Some s => if truthy (JStr s) then Some s else None
  | None => None
  end.

(** ** Errors and thrown values *)

(** [ErrorCode] of the MCP SDK. *)
Inductive ErrorCode : Type :=
  | ConnectionClosed
  | RequestTimeout
  | ParseError
  | InvalidRequest
  | MethodNotFound
  | InvalidParams
  | InternalError.

(** [new McpError(code, message)]: the code and the message argument as the
    source passes them to the SDK's constructor. *)
Record McpError : Type := new_McpError {
  mcp_code : ErrorCode;
  mcp_message : JSValue
}.

Record AxiosResponse : Type := {
  status : Z;
  statusText : string;
  data : JSValue
}.

(** The request object axios attaches to a failure once the request left. *)
Inductive ClientRequest : Type := SentRequest (path : string).

(** The failure axios hands to a rejection handler. *)
Record AxiosError : Type := {
  code : option string;
  message : string;
  request : option ClientRequest;
  response : option AxiosResponse
}.

(** What a [throw] (or a rejected promise) carries. *)
Inductive Exception : Type :=
  | JsError (msg : string)          (* new Error(msg) *)
  | Mcp (e : McpError)              (* new McpError(code, msg) *)
  | Transport (e : AxiosError)      (* the raw axios failure *)
  | Thrown (v : JSValue).           (* any other thrown value *)

Inductive Completion (A : Type) : Type :=
  | Return (a : A)
  | Throw (e : Exception).
Arguments Return {A} a.
Arguments Throw {A} e.

(** ** The axios client *)

Record Agent : Type := { rejectUnauthorized : bool }.

Record AxiosRequestConfig : Type := {
  baseURL : option string;
  url : option string;
  headers : gmap string string;
  timeout : option Z;
  httpsAgent : option Agent
}.

Record PostmanToolOptions : Type := {
  opt_baseURL : option string;
  opt_acceptHeader : option string
}.

(** The request hooks found on a client: the two closures the constructor
    registers, and whatever other owners of a shared client registered. *)
Inductive RequestInterceptor : Type :=
  | LogRequest
  | SetAccept (acceptHeader : string)
  | ForeignRequestHook (f : AxiosRequestConfig → AxiosRequestConfig).

Inductive ResponseInterceptor : Type :=
  | ErrorTranslation
  | ForeignResponseHook (tag : nat).

Record AxiosInstance : Type := {
  defaults : AxiosRequestConfig;
  request_interceptors : list RequestInterceptor;
  response_interceptors : list ResponseInterceptor
}.

(** Instances are held by reference. *)
Abbreviation ClientRef := nat (only parsing).

(** ** State and effects *)

Inductive ConsoleStream : Type := ConsoleLog | ConsoleError.

Record World : Type := {
  clients : gmap nat AxiosInstance;
  console : list (ConsoleStream * list JSValue)
}.

Definition M (A : Type) : Type := World → World * Completion A.

#[export] Instance M_ret : MRet M := λ A a w, (w, Return a).
#[export] Instance M_bind : MBind M := λ A B k m w,
  match m w with
  | (w', Return a) => k a w'
  | (w', Throw e) => (w', Throw e)
  end.

Definition throw {A : Type} (e : Exception) : M A := λ w, (w, Throw e).

(** [try { body } catch (error) { handler }] *)
Definition try_catch {A : Type} (body : M A) (handler : Exception → M A) : M A :=
  λ w,
    match body w with
    | (w', Return a) => (w', Return a)
    | (w', Throw e) => handler e w'
    end.

Definition console_write (stream : ConsoleStream) (args : list JSValue) : M unit :=
  λ w, ({| clients := clients w; console := console w ++ [(stream, args)] |}, Return ()).

(** [axios.create(config)]: a new instance that holds [config] and no hook. *)
Definition axios_create (config : AxiosRequestConfig) : M ClientRef :=
  λ w,
    let r := fresh (dom (clients w)) in
    ({| clients := <[r := {| defaults := config;
                             request_interceptors := [];
                             response_interceptors := [] |}]> (clients w);
        console := console w |}, Return r).

Definition add_request_interceptor (i : RequestInterceptor) (c : AxiosInstance) : AxiosInstance :=
  {| defaults := defaults c;
     request_interceptors := request_interceptors c ++ [i];
     response_interceptors := response_interceptors c |}.

Definition add_response_interceptor (i : ResponseInterceptor) (c : AxiosInstance) : AxiosInstance :=
  {| defaults := defaults c;
     request_interceptors := request_interceptors c;
     response_interceptors := response_interceptors c ++ [i] |}.

(** [client.interceptors.request.use(i)] *)
Definition request_use (client : ClientRef) (i : RequestInterceptor) : M unit :=
  λ w, ({| clients := alter (add_request_interceptor i) client (clients w);
           console := console w |}, Return ()).

(** [client.interceptors.response.use(onFulfilled, onRejected)] *)
Definition response_use (client : ClientRef) (i : ResponseInterceptor) : M unit :=
  λ w, ({| clients := alter (add_response_interceptor i) client (clients w);
           console := console w |}, Return ()).

(** ** The interceptors of [BasePostmanTool] *)

(** [config.headers[k] = v] *)
Definition set_header (k v : string) (config : AxiosRequestConfig) : AxiosRequestConfig :=
  {| baseURL := baseURL config;
     url := url config;
     headers := <[k := v]> (headers config);
     timeout := timeout config;
     httpsAgent := httpsAgent config |}.

(** The hooks on outgoing requests.  [LogRequest] is
    [config => { console.log('Making request to:', config.url); return config; }]
    and [SetAccept h] is
    [config => { config.headers['Accept'] = h; return config; }]. *)
Definition run_request_interceptor (i : RequestInterceptor)
    (config : AxiosRequestConfig) : M AxiosRequestConfig :=
  match i with
  | LogRequest =>
      console_write ConsoleLog [JStr "Making request to:"; of_opt_string (url config)];;
      mret config
  | SetAccept acceptHeader => mret (set_header "Accept" acceptHeader config)
  | ForeignRequestHook f => mret (f config)
  end.

Fixpoint run_request_chain (chain : list RequestInterceptor)
    (config : AxiosRequestConfig) : M AxiosRequestConfig :=
  match chain with
  | [] => mret config
  | i :: rest => config' ← run_request_interceptor i config; run_request_chain rest config'
  end.

(** The configuration a request leaves with: axios runs the request hooks of
    the instance on it, the hook registered last first. *)
Definition outgoing_config (c : AxiosInstance) (config : AxiosRequestConfig)
    : M AxiosRequestConfig :=
  run_request_chain (reverse (request_interceptors c)) config.

(** [response => response] *)
Definition onFulfilled (response : AxiosResponse) : M AxiosResponse := mret response.

(** [error.response.data?.error?.message] *)
Definition body_error_message (r : AxiosResponse) : JSValue :=
  opt_get (opt_get (data r) "error") "message".

(** The rejection handler of the response interceptor. *)
Definition onRejected (error : AxiosError) : M AxiosResponse :=
  console_write ConsoleError
    [JStr "Axios error:"; of_opt_string (code error); JStr (message error)];;
  match response error with
  | Some r =>
      match status r with
      | 400 =>
          throw (Mcp (new_McpError InvalidRequest
            (js_or (body_error_message r) (JStr "Invalid request parameters"))))
      | 401 =>
          throw (Mcp (new_McpError InvalidRequest
            (JStr "Unauthorized: Invalid or missing API key")))
      | 403 =>
          throw (Mcp (new_McpError InvalidRequest
            (JStr "Forbidden: Insufficient permissions or feature unavailable")))
      | 404 =>
          throw (Mcp (new_McpError InvalidRequest
            (JStr "Resource not found")))
      | 422 =>
          throw (Mcp (new_McpError InvalidRequest
            (js_or (body_error_message r) (JStr "Invalid request parameters"))))
      | 429 =>
          throw (Mcp (new_McpError InvalidRequest
            (JStr "Rate limit exceeded")))
      | _ =>
          throw (Mcp (new_McpError InternalError
            (js_or (body_error_message r) (JStr "Internal server error"))))
      end
  | None =>
      match request error with
      | Some _ =>
          throw (Mcp (new_McpError InternalError
            (JStr "No response received from Postman API")))
      | None =>
          throw (Mcp (new_McpError InternalError
            (JStr ("Error making request: " ++ message error))))
      end
  end.

(** ** The class *)

Record BasePostmanTool : Type := { client : ClientRef }.

Definition constructor (apiKey : option string) (options : PostmanToolOptions)
    (existingClient : option ClientRef) : M BasePostmanTool :=
  let baseURL := default "https://api.getpostman.com" (truthy_string (opt_baseURL options)) in
  client ←
    match existingClient with
    | Some c => mret c
    | None =>
        match truthy_string apiKey with
        | None => throw (JsError "API key is required when not providing an existing client")
        | Some apiKey =>
            axios_create
              {| baseURL := Some baseURL;
                 url := None;
                 headers := {[ "X-Api-Key" := apiKey;
                               "Content-Type" := "application/json" ]};
                 timeout := Some 30000;
                 httpsAgent := Some {| rejectUnauthorized := false |} |}
        end
    end;
  request_use client LogRequest;;
  match truthy_string (opt_acceptHeader options) with
  | Some acceptHeader => request_use client (SetAccept acceptHeader)
  | None => mret ()
  end;;
  response_use client ErrorTranslation;;
  mret {| client := client |}.

(** The request hooks the constructor registers, in the order it registers
    them. *)
Definition registered_request_hooks (options : PostmanToolOptions) : list RequestInterceptor :=
  LogRequest ::
  match truthy_string (opt_acceptHeader options) with
  | Some acceptHeader => [SetAccept acceptHeader]
  | None => []
  end.

(** Modelled from the spec: [ToolDefinition] and [ToolResource] are declared
    in [types/index.ts], which is not part of this unit.  A tool definition is
    a name plus metadata, a tool resource a descriptor identified by a URI. *)
Record ToolDefinition : Type := {
  name : string;
  definition_metadata : JSValue
}.

Record ToolResource : Type := {
  uri : string;
  resource_metadata : JSValue
}.

(** The methods a derived class may override, dispatched on [this]. *)
Class PostmanTool (T : Type) : Type := {
  getToolDefinitions : T → M (list ToolDefinition);
  listToolResources : T → M (list ToolResource);
  getToolResourceDetails : T → string → M ToolResource
}.

(** The bodies the base class gives them. *)
#[export] Instance BasePostmanTool_methods : PostmanTool BasePostmanTool := {
  getToolDefinitions _ :=
    throw (JsError "getToolDefinitions() must be implemented by derived class");
  listToolResources _ := mret [];
  getToolResourceDetails _ resourceUri :=
    throw (Mcp (new_McpError InvalidRequest
      (JStr ("Resource " ++ resourceUri ++ " cannot be handled by this tool"))))
}.

(** [ToolMapping]: the object literal the class uses as a dictionary.  It is
    made of its own string-keyed properties and of its prototype link:
    [prototype] is [None] while the link is the one the literal comes with
    ([Object.prototype]) and [Some o] once it is the object [o]. *)
Record ToolMapping (T : Type) : Type := {
  own : gmap string T;
  prototype : option T
}.
Arguments own {T} _.
Arguments prototype {T} _.

(** The literal [{}]. *)
Definition empty_object {T : Type} : ToolMapping T :=
  {| own := ∅; prototype := None |}.

(** [mappings[key] = value], for an object [value].  The name [__proto__] is
    no property of the mapping: it is the accessor every object inherits from
    [Object.prototype], whose setter replaces the prototype link.  Every other
    name becomes, or stays, an own property; the classes are taken to declare
    methods and data fields only, as [BasePostmanTool] does, so that no
    inherited setter stands in the way once the link is a tool instance. *)
Definition set_property {T : Type} (key : string) (value : T) (mappings : ToolMapping T)
    : ToolMapping T :=
  if decide (key = "__proto__")
  then {| own := own mappings; prototype := Some value |}
  else {| own := <[key := value]> (own mappings); prototype := prototype mappings |}.

(** [mappings[key]], as far as it yields a value that an assignment stored:
    the prototype link for [__proto__], the own property for every other
    name.  [None] stands for what the read inherits when nothing was stored. *)
Definition get_property {T : Type} (mappings : ToolMapping T) (key : string) : option T :=
  if decide (key = "__proto__") then prototype mappings else own mappings !! key.

Section Derived.
Context {T : Type} `{PostmanTool T}.

(** The [forEach] of [getToolMappings]: [mappings[tool.name] = this], on an
    object that starts as [{}]. *)
Definition assign_mappings (this : T) (toolDefinitions : list ToolDefinition)
    : ToolMapping T :=
  foldl (λ mappings tool, set_property (name tool) this mappings) empty_object toolDefinitions.

Definition getToolMappings (this : T) : M (ToolMapping T) :=
  toolDefinitions ← getToolDefinitions this;
  mret (assign_mappings this toolDefinitions).

Definition canHandleResource (this : T) (resourceUri : string) : M bool :=
  try_catch
    (getToolResourceDetails this resourceUri;; mret true)
    (λ _, mret false).
End Derived.

(** ** The documented behaviour, in the documentation's words *)

(** The statuses the documentation maps to an invalid-request error. *)
Definition invalid_request_statuses : list Z := [400; 401; 403; 404; 422; 429].

(** A field is present when the body holds it, whatever its value. *)
Definition present (v : JSValue) : bool :=
  match v with
  | JUndefined => false
  | _ => true
  end.

(** "message from the response body's nested error message field if present,
    else a fixed fallback string" *)
Definition field_if_present (r : AxiosResponse) (fallback : string) : JSValue :=
  if present (body_error_message r) then body_error_message r else JStr fallback.

(** The framework kind an error carries, if it carries one. *)
Definition framework_kind (e : Exception) : option ErrorCode :=
  match e with
  | Mcp m => Some (mcp_code m)
  | _ => None
  end.

Definition two_kinds (e : Exception) : Prop :=
  framework_kind e = Some InvalidRequest ∨ framework_kind e = Some InternalError.

(** 400 and 422 as documented: the body's field whenever it is present. *)
Definition bad_request_message_if_present : Prop :=
  ∀ (error : AxiosError) (r : AxiosResponse) (w : World),
    response error = Some r →
    status r = 400 ∨ status r = 422 →
    (onRejected error w).2 =
      Throw (Mcp (new_McpError InvalidRequest (field_if_present r "Invalid request parameters"))).

(** The other statuses as documented: the body's field whenever it is present. *)
Definition server_error_message_if_present : Prop :=
  ∀ (error : AxiosError) (r : AxiosResponse) (w : World),
    response error = Some r →
    status r ∉ invalid_request_statuses →
    (onRejected error w).2 =
      Throw (Mcp (new_McpError InternalError (field_if_present r "Internal server error"))).

(** A supplied client as documented: reused, its defaults kept, and no
    request leaving with other headers than before, whatever the options. *)
Definition existing_client_requests_unchanged : Prop :=
  ∀ (apiKey : option string) (options : PostmanToolOptions) (r : ClientRef)
    (c : AxiosInstance) (w : World) (config : AxiosRequestConfig),
    clients w !! r = Some c →
    ∃ (w' : World) (c' : AxiosInstance),
      constructor apiKey options (Some r) w = (w', Return {| client := r |}) ∧
      clients w' !! r = Some c' ∧
      defaults c' = defaults c ∧
      (outgoing_config c' config w').2 = (outgoing_config c config w').2.

(** Every operation of the unit as documented: whatever it throws carries one
    of the two kinds. *)
Definition every_error_has_a_kind : Prop :=
  ∀ (w w' : World) (e : Exception),
    (∀ apiKey options existingClient,
       constructor apiKey options existingClient w = (w', Throw e) → two_kinds e) ∧
    (∀ error, onRejected error w = (w', Throw e) → two_kinds e) ∧
    (∀ this : BasePostmanTool, getToolDefinitions this w = (w', Throw e) → two_kinds e) ∧
    (∀ this : BasePostmanTool, getToolMappings this w = (w', Throw e) → two_kinds e) ∧
    (∀ this : BasePostmanTool, listToolResources this w = (w', Throw e) → two_kinds e) ∧
    (∀ (this : BasePostmanTool) resourceUri,
       getToolResourceDetails this resourceUri w = (w', Throw e) → two_kinds e) ∧
    (∀ (this : BasePostmanTool) resourceUri,
       canHandleResource this resourceUri w = (w', Throw e) → two_kinds e).

(** A new client as documented: the option's base URL whenever one is given. *)
Definition base_url_is_the_option_when_given : Prop :=
  ∀ (apiKey : string) (options : PostmanToolOptions) (w : World),
    apiKey ≠ "" →
    ∃ (w' : World) (tool : BasePostmanTool) (c : AxiosInstance),
      constructor (Some apiKey) options None w = (w', Return tool) ∧
      clients w' !! client tool = Some c ∧
      baseURL (defaults c) =
        Some (default "https://api.getpostman.com" (opt_baseURL options)).

(** ** Sample inputs *)

Definition empty_world : World := {| clients := ∅; console := [] |}.

(** A response whose body is [{"error": {"message": msg}}]. *)
Definition error_response (st : Z) (msg : string) : AxiosResponse :=
  {| status := st;
     statusText := "";
     data := JObj {[ "error" := JObj {[ "message" := JStr msg ]} ]} |}.

(** A response whose body is [{}]. *)
Definition bare_response (st : Z) : AxiosResponse :=
  {| status := st; statusText := ""; data := JObj ∅ |}.

Definition failed_with (r : AxiosResponse) : AxiosError :=
  {| code := Some "ERR_BAD_RESPONSE";
     message := "Request failed";
     request := Some (SentRequest "/collections");
     response := Some r |}.

Definition timed_out : AxiosError :=
  {| code := Some "ECONNABORTED";
     message := "timeout of 30000ms exceeded";
     request := Some (SentRequest "/collections");
     response := None |}.

Definition never_sent : AxiosError :=
  {| code := None;
     message := "Invalid URL";
     request := None;
     response := None |}.

Definition bare_config : AxiosRequestConfig :=
  {| baseURL := Some "https://proxy.example";
     url := Some "/collections";
     headers := {[ "Accept" := "application/json" ]};
     timeout := None;
     httpsAgent := None |}.

Definition shared_client : AxiosInstance :=
  {| defaults := bare_config; request_interceptors := []; response_interceptors := [] |}.

Definition shared_world : World := {| clients := {[ 0%nat := shared_client ]}; console := [] |}.

(** A derived class in the way of the documentation's examples: two tool
    definitions named [a] and [b], and resource hooks that succeed. *)
Record ExampleTool : Type := { base : BasePostmanTool }.

Definition tool_a : ToolDefinition := {| name := "a"; definition_metadata := JNull |}.
Definition tool_b : ToolDefinition := {| name := "b"; definition_metadata := JNull |}.

#[export] Instance ExampleTool_methods : PostmanTool ExampleTool := {
  getToolDefinitions _ := mret [tool_a; tool_b];
  listToolResources _ := mret [];
  getToolResourceDetails _ resourceUri :=
    mret {| uri := resourceUri; resource_metadata := JNull |}
}.

Definition tool_proto : ToolDefinition :=
  {| name := "__proto__"; definition_metadata := JNull |}.

Definition example_tool : ExampleTool := {| base := {| client := 0%nat |} |}.

(** A 409 whose body holds more than the message. *)
Definition conflict_error_props : gmap string JSValue :=
  {[ "name" := JStr "instanceFoundError"; "message" := JStr "already exists" ]}.

Definition conflict_props : gmap string JSValue :=
  {[ "error" := JObj conflict_error_props; "requestId" := JNum 7 ]}.

Definition conflict_response : AxiosResponse :=
  {| status := 409; statusText := "Conflict"; data := JObj conflict_props |}.

(** A 502 whose body is a page of a proxy, and a 400 whose [error] is a
    string. *)
Definition gateway_page : AxiosResponse :=
  {| status := 502; statusText := "Bad Gateway"; data := JStr "<html>Bad Gateway</html>" |}.

Definition malformed_response : AxiosResponse :=
  {| status := 400; statusText := "Bad Request";
     data := JObj {[ "error" := JStr "malformed" ]} |}.

(** ** Running the handlers *)

Ltac run_M :=
  unfold mbind, M_bind, mret, M_ret, throw, try_catch, console_write,
    request_use, response_use, axios_create; simpl.

Lemma onRejected_listed_status (error : AxiosError) (r : AxiosResponse) (w : World) :
  response error = Some r →
  status r ∈ invalid_request_statuses →
  ∃ msg : JSValue,
    (onRejected error w).2 = Throw (Mcp (new_McpError InvalidRequest msg)).
Proof.
  intros Hr Hs. unfold invalid_request_statuses in Hs.
  unfold onRejected. run_M. rewrite Hr.
  repeat (apply elem_of_cons in Hs as [-> | Hs]; [eexists; reflexivity |]).
  by apply elem_of_nil in Hs.
Qed.

Lemma onRejected_other_status (error : AxiosError) (r : AxiosResponse) (w : World) :
  response error = Some r →
  status r ∉ invalid_request_statuses →
  (onRejected error w).2 =
    Throw (Mcp (new_McpError InternalError
      (js_or (body_error_message r) (JStr "Internal server error")))).
Proof.
  intros Hr Hs. unfold invalid_request_statuses in Hs.
  unfold onRejected. run_M. rewrite Hr.
  destruct (status r) as [|p|p]; try reflexivity.
  do 9 (destruct p as [p|p|]; try reflexivity); exfalso; apply Hs; set_solver.
Qed.

Lemma onRejected_no_response (error : AxiosError) (w : World) :
  response error = None →
  (onRejected error w).2 =
    Throw (Mcp (new_McpError InternalError
      match request error with
      | Some _ => JStr "No response received from Postman API"
      | None => JStr ("Error making request: " ++ message error)
      end)).
Proof.
  intros Hr. unfold onRejected. run_M. rewrite Hr.
  by destruct (request error).
Qed.

(** ** The response interceptor *)

(** C1 (as amended): a failure whose response has status 400, 401, 403, 404,
    422 or 429 is re-thrown as an [InvalidRequest] error.  For 400 and 422 the
    message is the body's [error.message] when that value is truthy (for a
    string: not empty) and ['Invalid request parameters'] otherwise; for 401,
    403, 404 and 429 it is the fixed message of the status. *)
Theorem onRejected_invalid_request (error : AxiosError) (r : AxiosResponse) (w : World) :
  response error = Some r →
  status r ∈ invalid_request_statuses →
  ∃ msg : JSValue,
    (onRejected error w).2 = Throw (Mcp (new_McpError InvalidRequest msg)) ∧
    (status r = 400 ∨ status r = 422 →
       msg = if truthy (body_error_message r) then body_error_message r
             else JStr "Invalid request parameters") ∧
    (status r = 401 → msg = JStr "Unauthorized: Invalid or missing API key") ∧
    (status r = 403 →
       msg = JStr "Forbidden: Insufficient permissions or feature unavailable") ∧
    (status r = 404 → msg = JStr "Resource not found") ∧
    (status r = 429 → msg = JStr "Rate limit exceeded").
Proof.
  intros Hr Hs. unfold invalid_request_statuses in Hs.
  unfold onRejected. run_M. rewrite Hr.
  repeat (apply elem_of_cons in Hs as [-> | Hs];
    [eexists; split; [reflexivity |];
     repeat split; intros; try reflexivity; (lia || (exfalso; lia)) |]).
  by apply elem_of_nil in Hs.
Qed.

Lemma onRejected_invalid_request_witness :
  response (failed_with (error_response 422 "name is required"))
    = Some (error_response 422 "name is required") ∧
  status (error_response 422 "name is required") ∈ invalid_request_statuses ∧
  ∃ msg : JSValue,
    (onRejected (failed_with (error_response 422 "name is required")) empty_world).2
      = Throw (Mcp (new_McpError InvalidRequest msg)) ∧
    msg = JStr "name is required".
Proof.
  assert (Hs : status (error_response 422 "name is required") ∈ invalid_request_statuses).
  { unfold invalid_request_statuses. simpl. do 4 apply list_elem_of_further.
    apply list_elem_of_here. }
  split; [reflexivity |]. split; [exact Hs |].
  destruct (onRejected_invalid_request
              (failed_with (error_response 422 "name is required"))
              (error_response 422 "name is required") empty_world eq_refl Hs)
    as (msg & Hout & Hbody & _).
  exists msg. split; [exact Hout |].
  rewrite Hbody; [reflexivity | right; reflexivity].
Defined.

(** C1, the claim as written, fails: with status 400 and the body
    [{"error": {"message": ""}}] the field is present, yet the error carries
    the fallback string and not the field. *)
Lemma bad_request_empty_message :
  body_error_message (error_response 400 "") = JStr "" ∧
  (onRejected (failed_with (error_response 400 "")) empty_world).2
    = Throw (Mcp (new_McpError InvalidRequest (JStr "Invalid request parameters"))) ∧
  ¬ bad_request_message_if_present.
Proof.
  split; [reflexivity |]. split; [reflexivity |].
  intros Hdoc.
  specialize (Hdoc (failed_with (error_response 400 "")) (error_response 400 "")
                empty_world eq_refl (or_introl eq_refl)).
  discriminate Hdoc.
Qed.

(** C2 (as amended): every failure that is not mapped to an invalid request is
    re-thrown as an [InternalError].  With a response of another status the
    message is the body's [error.message] when that value is truthy (for a
    string: not empty) and ['Internal server error'] otherwise; with a request
    but no response it is the fixed no-response message; with neither it is
    ['Error making request: '] followed by the failure's own message. *)
Theorem onRejected_internal_error (error : AxiosError) (w : World) :
  (∀ r : AxiosResponse,
     response error = Some r →
     status r ∉ invalid_request_statuses →
     (onRejected error w).2 =
       Throw (Mcp (new_McpError InternalError
         (if truthy (body_error_message r) then body_error_message r
          else JStr "Internal server error")))) ∧
  (response error = None →
   is_Some (request error) →
   (onRejected error w).2 =
     Throw (Mcp (new_McpError InternalError
       (JStr "No response received from Postman API")))) ∧
  (response error = None →
   request error = None →
   (onRejected error w).2 =
     Throw (Mcp (new_McpError InternalError
       (JStr ("Error making request: " ++ message error))))).
Proof.
  split; [| split].
  - intros r Hr Hs. by rewrite (onRejected_other_status error r w Hr Hs).
  - intros Hr [q Hq]. rewrite (onRejected_no_response error w Hr). by rewrite Hq.
  - intros Hr Hq. rewrite (onRejected_no_response error w Hr). by rewrite Hq.
Qed.

Lemma onRejected_internal_error_witness :
  (response (failed_with (error_response 503 "maintenance"))
     = Some (error_response 503 "maintenance") ∧
   (status (error_response 503 "maintenance") ∉ invalid_request_statuses) ∧
   (onRejected (failed_with (error_response 503 "maintenance")) empty_world).2
     = Throw (Mcp (new_McpError InternalError (JStr "maintenance")))) ∧
  (response (failed_with (bare_response 500)) = Some (bare_response 500) ∧
   (status (bare_response 500) ∉ invalid_request_statuses) ∧
   (onRejected (failed_with (bare_response 500)) empty_world).2
     = Throw (Mcp (new_McpError InternalError (JStr "Internal server error")))) ∧
  (response timed_out = None ∧ is_Some (request timed_out) ∧
   (onRejected timed_out empty_world).2
     = Throw (Mcp (new_McpError InternalError
         (JStr "No response received from Postman API")))) ∧
  (response never_sent = None ∧ request never_sent = None ∧
   (onRejected never_sent empty_world).2
     = Throw (Mcp (new_McpError InternalError
         (JStr "Error making request: Invalid URL")))).
Proof.
  assert (Hout : ∀ st : Z, st = 503 ∨ st = 500 → st ∉ invalid_request_statuses).
  { intros st Hst Hin. unfold invalid_request_statuses in Hin.
    repeat (apply elem_of_cons in Hin as [-> | Hin]; [destruct Hst; discriminate |]).
    by apply elem_of_nil in Hin. }
  split; [| split; [| split]].
  - split; [reflexivity |]. split; [exact (Hout 503 (or_introl eq_refl)) |].
    exact (proj1 (onRejected_internal_error
             (failed_with (error_response 503 "maintenance")) empty_world)
             (error_response 503 "maintenance") eq_refl (Hout 503 (or_introl eq_refl))).
  - split; [reflexivity |]. split; [exact (Hout 500 (or_intror eq_refl)) |].
    exact (proj1 (onRejected_internal_error (failed_with (bare_response 500)) empty_world)
             (bare_response 500) eq_refl (Hout 500 (or_intror eq_refl))).
  - split; [reflexivity |]. split; [by eexists |].
    exact (proj1 (proj2 (onRejected_internal_error timed_out empty_world))
             eq_refl (ex_intro _ _ eq_refl)).
  - split; [reflexivity |]. split; [reflexivity |].
    exact (proj2 (proj2 (onRejected_internal_error never_sent empty_world))
             eq_refl eq_refl).
Defined.

(** C2, the claim as written, fails: with status 500 and the body
    [{"error": {"message": ""}}] the field is present, yet the error carries
    ['Internal server error'] and not the field. *)
Lemma server_error_empty_message :
  (status (error_response 500 "") ∉ invalid_request_statuses) ∧
  body_error_message (error_response 500 "") = JStr "" ∧
  (onRejected (failed_with (error_response 500 "")) empty_world).2
    = Throw (Mcp (new_McpError InternalError (JStr "Internal server error"))) ∧
  ¬ server_error_message_if_present.
Proof.
  assert (Hs : status (error_response 500 "") ∉ invalid_request_statuses).
  { intros Hin. unfold invalid_request_statuses in Hin.
    repeat (apply elem_of_cons in Hin as [Heq | Hin]; [discriminate Heq |]).
    by apply elem_of_nil in Hin. }
  split; [exact Hs |]. split; [reflexivity |]. split; [reflexivity |].
  intros Hdoc.
  specialize (Hdoc (failed_with (error_response 500 "")) (error_response 500 "")
                empty_world eq_refl Hs).
  discriminate Hdoc.
Qed.

(** C5 (as amended): the response interceptor hands a response back
    unchanged; on a failure it never returns and never re-throws the failure
    it received: it throws an [McpError] whose kind is [InvalidRequest] or
    [InternalError].  The default [getToolResourceDetails] throws an
    [InvalidRequest] error too.  The errors of the constructor and of the
    default [getToolDefinitions], which [getToolMappings] lets through, are
    plain [Error]s and carry neither kind. *)
Theorem response_interceptor_two_kinds :
  (∀ (r : AxiosResponse) (w : World), onFulfilled r w = (w, Return r)) ∧
  (∀ (error : AxiosError) (w : World),
     ∃ e : Exception,
       (onRejected error w).2 = Throw e ∧ two_kinds e ∧ e ≠ Transport error) ∧
  (∀ (this : BasePostmanTool) (resourceUri : string) (w : World),
     ∃ e : Exception,
       (getToolResourceDetails this resourceUri w).2 = Throw e ∧
       framework_kind e = Some InvalidRequest) ∧
  (∀ (this : BasePostmanTool) (w : World),
     ∃ e : Exception,
       (getToolDefinitions this w).2 = Throw e ∧
       (getToolMappings this w).2 = Throw e ∧
       framework_kind e = None) ∧
  (∀ (options : PostmanToolOptions) (w : World),
     ∃ e : Exception,
       (constructor None options None w).2 = Throw e ∧ framework_kind e = None).
Proof.
  split; [reflexivity |]. split; [| split; [| split]].
  - intros error w.
    destruct (response error) as [r |] eqn:Hr.
    + destruct (decide (status r ∈ invalid_request_statuses)) as [Hs | Hs].
      * destruct (onRejected_listed_status error r w Hr Hs) as [msg Hmsg].
        eexists. split; [exact Hmsg |]. split; [by left | discriminate].
      * eexists. split; [exact (onRejected_other_status error r w Hr Hs) |].
        split; [by right | discriminate].
    + eexists. split; [exact (onRejected_no_response error w Hr) |].
      split; [by right | discriminate].
  - intros this resourceUri w. by eexists.
  - intros this w. by eexists.
  - intros options w. by eexists.
Qed.

(** C5, the claim as written, fails: the default [getToolDefinitions] throws
    a plain [Error], which carries neither of the two kinds. *)
Lemma getToolDefinitions_error_has_no_kind :
  getToolDefinitions {| client := 0%nat |} empty_world
    = (empty_world,
       Throw (JsError "getToolDefinitions() must be implemented by derived class")) ∧
  ¬ two_kinds (JsError "getToolDefinitions() must be implemented by derived class") ∧
  ¬ every_error_has_a_kind.
Proof.
  assert (Hkind :
    ¬ two_kinds (JsError "getToolDefinitions() must be implemented by derived class")).
  { intros [Hk | Hk]; discriminate Hk. }
  split; [reflexivity |]. split; [exact Hkind |].
  intros Hdoc.
  destruct (Hdoc empty_world empty_world
              (JsError "getToolDefinitions() must be implemented by derived class"))
    as (_ & _ & Hdefs & _).
  exact (Hkind (Hdefs {| client := 0%nat |} eq_refl)).
Qed.

(** ** The constructor *)

Lemma register_hooks (options : PostmanToolOptions) (r : ClientRef) (c : AxiosInstance)
    (w : World) :
  clients w !! r = Some c →
  (request_use r LogRequest;;
   match truthy_string (opt_acceptHeader options) with
   | Some acceptHeader => request_use r (SetAccept acceptHeader)
   | None => mret ()
   end;;
   response_use r ErrorTranslation;;
   mret {| client := r |}) w =
  ({| clients :=
        <[r := {| defaults := defaults c;
                  request_interceptors :=
                    request_interceptors c ++ registered_request_hooks options;
                  response_interceptors :=
                    response_interceptors c ++ [ErrorTranslation] |}]> (clients w);
      console := console w |},
   Return {| client := r |}).
Proof.
  intros Hc. unfold registered_request_hooks. run_M.
  destruct (truthy_string (opt_acceptHeader options)) as [h |]; simpl;
    f_equal; f_equal; apply map_eq; intros i;
    destruct (decide (r = i)) as [<- | Hne];
    repeat first [rewrite lookup_alter_eq | rewrite lookup_insert_eq
                 | rewrite lookup_alter_ne by done | rewrite lookup_insert_ne by done];
    try done;
    rewrite Hc; simpl; unfold add_response_interceptor, add_request_interceptor; simpl;
    by rewrite <- ?app_assoc.
Qed.

(** The hooks on requests never throw, and what they do to a configuration
    does not depend on the state they run in. *)
Lemma run_request_chain_outcome (chain : list RequestInterceptor)
    (config : AxiosRequestConfig) (w1 w2 : World) :
  (run_request_chain chain config w1).2 = (run_request_chain chain config w2).2.
Proof.
  revert config w1 w2.
  induction chain as [| i rest IH]; intros config w1 w2; [reflexivity |].
  destruct i; simpl; run_M; apply IH.
Qed.

(** C3 (as amended): with a client supplied, that very client becomes the
    tool's client, whatever the key and the options.  Its defaults (base URL,
    headers, timeout, agent) stay as they are and no other client is created
    or touched.  The constructor registers its hooks on it: the logging hook,
    the error translation and, when [options.acceptHeader] is a non-empty
    string, a hook that overwrites the [Accept] header of every outgoing
    request; without that option requests leave as they did before. *)
Theorem constructor_existing_client (apiKey : option string) (options : PostmanToolOptions)
    (r : ClientRef) (c : AxiosInstance) (w : World) :
  clients w !! r = Some c →
  ∃ c' : AxiosInstance,
    constructor apiKey options (Some r) w =
      ({| clients := <[r := c']> (clients w); console := console w |},
       Return {| client := r |}) ∧
    defaults c' = defaults c ∧
    request_interceptors c' =
      (request_interceptors c ++ registered_request_hooks options)%list ∧
    response_interceptors c' = (response_interceptors c ++ [ErrorTranslation])%list ∧
    ∀ (config : AxiosRequestConfig) (w1 w2 : World),
      (outgoing_config c' config w1).2 =
        (outgoing_config c
           match truthy_string (opt_acceptHeader options) with
           | Some acceptHeader => set_header "Accept" acceptHeader config
           | None => config
           end w2).2.
Proof.
  intros Hc. eexists. split.
  - exact (register_hooks options r c w Hc).
  - simpl. do 3 (split; [reflexivity |]).
    intros config w1 w2. unfold outgoing_config, registered_request_hooks. simpl.
    rewrite reverse_app.
    destruct (truthy_string (opt_acceptHeader options)) as [h |]; simpl; run_M;
      apply run_request_chain_outcome.
Qed.

Lemma constructor_existing_client_witness :
  clients shared_world !! 0%nat = Some shared_client ∧
  ∃ c' : AxiosInstance,
    constructor None {| opt_baseURL := Some "https://other.example";
                        opt_acceptHeader := None |} (Some 0%nat) shared_world =
      ({| clients := <[0%nat := c']> (clients shared_world); console := [] |},
       Return {| client := 0%nat |}) ∧
    defaults c' = bare_config ∧
    request_interceptors c' = [LogRequest] ∧
    response_interceptors c' = [ErrorTranslation].
Proof.
  split; [reflexivity |].
  destruct (constructor_existing_client None
              {| opt_baseURL := Some "https://other.example"; opt_acceptHeader := None |}
              0%nat shared_client shared_world eq_refl)
    as (c' & Hrun & Hdef & Hreq & Hresp & _).
  exists c'. split; [exact Hrun |]. split; [exact Hdef |].
  split; [exact Hreq | exact Hresp].
Defined.

(** C3, the claim as written, fails: built on a supplied client with the
    option [acceptHeader: "text/plain"], the tool makes every request of that
    client leave with the [Accept] header overwritten. *)
Lemma existing_client_accept_overwritten :
  let options := {| opt_baseURL := None; opt_acceptHeader := Some "text/plain" |} in
  let c' := {| defaults := bare_config;
               request_interceptors := [LogRequest; SetAccept "text/plain"];
               response_interceptors := [ErrorTranslation] |} in
  constructor None options (Some 0%nat) shared_world =
    ({| clients := {[ 0%nat := c' ]}; console := [] |}, Return {| client := 0%nat |}) ∧
  (outgoing_config shared_client bare_config empty_world).2 = Return bare_config ∧
  (outgoing_config c' bare_config empty_world).2 =
    Return (set_header "Accept" "text/plain" bare_config) ∧
  headers (set_header "Accept" "text/plain" bare_config) !! "Accept" = Some "text/plain" ∧
  headers bare_config !! "Accept" = Some "application/json" ∧
  ¬ existing_client_requests_unchanged.
Proof.
  assert (Hrun :
    constructor None {| opt_baseURL := None; opt_acceptHeader := Some "text/plain" |}
      (Some 0%nat) shared_world =
    ({| clients := {[ 0%nat := {| defaults := bare_config;
                                  request_interceptors := [LogRequest; SetAccept "text/plain"];
                                  response_interceptors := [ErrorTranslation] |} ]};
        console := [] |}, Return {| client := 0%nat |})).
  { etrans;
      [exact (register_hooks {| opt_baseURL := None; opt_acceptHeader := Some "text/plain" |}
                0%nat shared_client shared_world eq_refl) |].
    simpl. by rewrite insert_singleton_eq. }
  cbv zeta. split; [exact Hrun |].
  do 4 (split; [reflexivity |]).
  intros Hdoc.
  destruct (Hdoc None {| opt_baseURL := None; opt_acceptHeader := Some "text/plain" |}
              0%nat shared_client shared_world bare_config eq_refl)
    as (w' & c' & Hrun' & Hc' & _ & Hout).
  rewrite Hrun in Hrun'. injection Hrun' as <-.
  simpl in Hc'. rewrite lookup_singleton_eq in Hc'. injection Hc' as <-.
  apply (f_equal (λ o, match o with
                       | Return config => headers config !! "Accept"
                       | Throw _ => None
                       end)) in Hout.
  discriminate Hout.
Qed.

Lemma truthy_string_Some (s : string) : s ≠ "" → truthy_string (Some s) = Some s.
Proof.
  intros Hs. unfold truthy_string. simpl.
  by destruct (String.eqb_spec s "").
Qed.

Lemma constructor_creates (apiKey : string) (options : PostmanToolOptions) (w : World) :
  apiKey ≠ "" →
  constructor (Some apiKey) options None w =
    ({| clients :=
          <[fresh (dom (clients w)) :=
              {| defaults :=
                   {| baseURL := Some (default "https://api.getpostman.com"
                                         (truthy_string (opt_baseURL options)));
                      url := None;
                      headers := {[ "X-Api-Key" := apiKey;
                                    "Content-Type" := "application/json" ]};
                      timeout := Some 30000;
                      httpsAgent := Some {| rejectUnauthorized := false |} |};
                 request_interceptors := registered_request_hooks options;
                 response_interceptors := [ErrorTranslation] |}]> (clients w);
        console := console w |},
     Return {| client := fresh (dom (clients w)) |}).
Proof.
  intros Hkey. unfold constructor. rewrite (truthy_string_Some apiKey Hkey).
  etrans.
  - refine (register_hooks options (fresh (dom (clients w))) _ _ _).
    simpl. apply lookup_insert_eq.
  - simpl. by rewrite insert_insert_eq.
Qed.

(** C4: without a supplied client and without an API key the constructor
    throws, as its own completion, a plain [Error] that names the missing key;
    the state is the one it started in, so no client was created and no hook
    registered. *)
Theorem constructor_requires_api_key (options : PostmanToolOptions) (w : World) :
  constructor None options None w =
    (w, Throw (JsError "API key is required when not providing an existing client")).
Proof. reflexivity. Qed.

(** C9 (as amended): with a non-empty API key and no supplied client the
    constructor creates a new client, held by the tool, whose configuration
    has as base URL [options.baseURL] when that is a non-empty string and
    [https://api.getpostman.com] otherwise, the header [X-Api-Key] with the
    key, the header [Content-Type] with [application/json], a timeout of
    30 seconds and an agent that does not reject unauthorized certificates. *)
Theorem constructor_new_client (apiKey : string) (options : PostmanToolOptions) (w : World) :
  apiKey ≠ "" →
  ∃ (r : ClientRef) (c : AxiosInstance),
    clients w !! r = None ∧
    constructor (Some apiKey) options None w =
      ({| clients := <[r := c]> (clients w); console := console w |},
       Return {| client := r |}) ∧
    (∀ u : string, opt_baseURL options = Some u → u ≠ "" → baseURL (defaults c) = Some u) ∧
    (opt_baseURL options = None ∨ opt_baseURL options = Some "" →
       baseURL (defaults c) = Some "https://api.getpostman.com") ∧
    headers (defaults c) !! "X-Api-Key" = Some apiKey ∧
    headers (defaults c) !! "Content-Type" = Some "application/json" ∧
    timeout (defaults c) = Some (30 * 1000) ∧
    httpsAgent (defaults c) = Some {| rejectUnauthorized := false |}.
Proof.
  intros Hkey. eexists _, _.
  split; [| split; [exact (constructor_creates apiKey options w Hkey) |]].
  - apply not_elem_of_dom, is_fresh.
  - simpl. split; [| split; [| split; [| split]]].
    + intros u -> Hu. by rewrite (truthy_string_Some u Hu).
    + by intros [-> | ->].
    + by rewrite lookup_insert_eq.
    + rewrite lookup_insert_ne by done. by rewrite lookup_singleton_eq.
    + by split.
Qed.

Lemma constructor_new_client_witness :
  "PMAK-1" ≠ "" ∧
  ∃ (r : ClientRef) (c : AxiosInstance),
    constructor (Some "PMAK-1")
      {| opt_baseURL := Some "https://proxy.example"; opt_acceptHeader := None |}
      None empty_world =
      ({| clients := {[ r := c ]}; console := [] |}, Return {| client := r |}) ∧
    baseURL (defaults c) = Some "https://proxy.example" ∧
    headers (defaults c) !! "X-Api-Key" = Some "PMAK-1" ∧
    timeout (defaults c) = Some 30000.
Proof.
  assert (Hkey : "PMAK-1" ≠ "") by discriminate.
  split; [exact Hkey |].
  destruct (constructor_new_client "PMAK-1"
              {| opt_baseURL := Some "https://proxy.example"; opt_acceptHeader := None |}
              empty_world Hkey)
    as (r & c & _ & Hrun & Hurl & _ & Hauth & _ & Htime & _).
  exists r, c. split; [exact Hrun |].
  split; [apply Hurl; [reflexivity | discriminate] |].
  split; [exact Hauth | exact Htime].
Defined.

(** C9, the claim as written, fails: the option [baseURL: ""] is given, yet
    the new client's base URL is the default origin and not the option. *)
Lemma empty_base_url_replaced :
  (∃ (w' : World) (tool : BasePostmanTool) (c : AxiosInstance),
     constructor (Some "PMAK-1") {| opt_baseURL := Some ""; opt_acceptHeader := None |}
       None empty_world = (w', Return tool) ∧
     clients w' !! client tool = Some c ∧
     baseURL (defaults c) = Some "https://api.getpostman.com") ∧
  ¬ base_url_is_the_option_when_given.
Proof.
  assert (Hkey : "PMAK-1" ≠ "") by discriminate.
  pose proof (constructor_creates "PMAK-1"
                {| opt_baseURL := Some ""; opt_acceptHeader := None |}
                empty_world Hkey) as Hrun.
  split.
  - eexists _, _, _. split; [exact Hrun |]. split; [apply lookup_insert_eq | reflexivity].
  - intros Hdoc.
    destruct (Hdoc "PMAK-1" {| opt_baseURL := Some ""; opt_acceptHeader := None |}
                empty_world Hkey) as (w' & tool & c & Hrun' & Hc & Hurl).
    rewrite Hrun in Hrun'. injection Hrun' as <- <-.
    simpl in Hc. rewrite lookup_insert_eq in Hc. injection Hc as <-.
    discriminate Hurl.
Qed.

(** C10: the empty string is no API key.  Without a supplied client the
    constructor does with the key [""] exactly what it does with no key, and
    throws the same [Error]; and the option [baseURL: ""] is the same as no
    such option, so a new client gets the default origin. *)
Theorem constructor_empty_strings (options : PostmanToolOptions) (w : World) :
  constructor (Some "") options None w = constructor None options None w ∧
  constructor (Some "") options None w =
    (w, Throw (JsError "API key is required when not providing an existing client")) ∧
  (∀ (apiKey : option string) (acceptHeader : option string)
     (existingClient : option ClientRef),
     constructor apiKey {| opt_baseURL := Some ""; opt_acceptHeader := acceptHeader |}
       existingClient w =
     constructor apiKey {| opt_baseURL := None; opt_acceptHeader := acceptHeader |}
       existingClient w) ∧
  (∀ (apiKey : string) (acceptHeader : option string),
     apiKey ≠ "" →
     ∃ (w' : World) (tool : BasePostmanTool) (c : AxiosInstance),
       constructor (Some apiKey)
         {| opt_baseURL := Some ""; opt_acceptHeader := acceptHeader |} None w =
         (w', Return tool) ∧
       clients w' !! client tool = Some c ∧
       baseURL (defaults c) = Some "https://api.getpostman.com").
Proof.
  split; [reflexivity |]. split; [reflexivity |]. split; [reflexivity |].
  intros apiKey acceptHeader Hkey.
  eexists _, _, _.
  split; [exact (constructor_creates apiKey _ w Hkey) |].
  split; [apply lookup_insert_eq | reflexivity].
Qed.

Lemma constructor_empty_strings_witness :
  "PMAK-1" ≠ "" ∧
  ∃ (w' : World) (tool : BasePostmanTool) (c : AxiosInstance),
    constructor (Some "PMAK-1")
      {| opt_baseURL := Some ""; opt_acceptHeader := Some "application/json" |}
      None empty_world = (w', Return tool) ∧
    clients w' !! client tool = Some c ∧
    baseURL (defaults c) = Some "https://api.getpostman.com".
Proof.
  assert (Hkey : "PMAK-1" ≠ "") by discriminate.
  split; [exact Hkey |].
  exact (proj2 (proj2 (proj2 (constructor_empty_strings
           {| opt_baseURL := None; opt_acceptHeader := None |} empty_world)))
           "PMAK-1" (Some "application/json") Hkey).
Defined.

(** ** Tool and resource discovery *)

Lemma assign_mappings_snoc {T : Type} (this : T) (toolDefinitions : list ToolDefinition)
    (tool : ToolDefinition) :
  assign_mappings this (toolDefinitions ++ [tool])%list =
    set_property (name tool) this (assign_mappings this toolDefinitions).
Proof. unfold assign_mappings. by rewrite foldl_app. Qed.

Lemma assign_mappings_own {T : Type} (this : T) (toolDefinitions : list ToolDefinition)
    (key : string) :
  own (assign_mappings this toolDefinitions) !! key =
    if decide (key ∈ name <$> toolDefinitions ∧ key ≠ "__proto__") then Some this else None.
Proof.
  induction toolDefinitions as [| tool toolDefinitions IH] using rev_ind.
  - rewrite decide_False; [done |]. intros [Hin _]. by apply not_elem_of_nil in Hin.
  - rewrite assign_mappings_snoc, fmap_app. simpl. unfold set_property.
    destruct (decide (name tool = "__proto__")) as [Hproto | Hproto]; simpl.
    + rewrite IH.
      destruct (decide (key ∈ name <$> toolDefinitions ∧ key ≠ "__proto__")) as [[Hin Hk] | Hno].
      * rewrite decide_True; [done |]. split; [| done]. apply elem_of_app. by left.
      * rewrite decide_False; [done |].
        intros [[Hin | Hin%list_elem_of_singleton]%elem_of_app Hk]; [by apply Hno |].
        congruence.
    + destruct (decide (name tool = key)) as [<- | Hne].
      * rewrite lookup_insert_eq. rewrite decide_True; [done |].
        split; [| done]. apply elem_of_app. right. apply list_elem_of_here.
      * rewrite lookup_insert_ne by done. rewrite IH.
        destruct (decide (key ∈ name <$> toolDefinitions ∧ key ≠ "__proto__"))
          as [[Hin Hk] | Hno].
        -- rewrite decide_True; [done |]. split; [| done]. apply elem_of_app. by left.
        -- rewrite decide_False; [done |].
           intros [[Hin | Hin%list_elem_of_singleton]%elem_of_app Hk]; [by apply Hno |].
           congruence.
Qed.

Lemma assign_mappings_prototype {T : Type} (this : T) (toolDefinitions : list ToolDefinition) :
  prototype (assign_mappings this toolDefinitions) =
    if decide ("__proto__" ∈ name <$> toolDefinitions) then Some this else None.
Proof.
  induction toolDefinitions as [| tool toolDefinitions IH] using rev_ind.
  - rewrite decide_False; [done |]. apply not_elem_of_nil.
  - rewrite assign_mappings_snoc, fmap_app. simpl. unfold set_property.
    destruct (decide (name tool = "__proto__")) as [Hproto | Hproto]; simpl.
    + rewrite decide_True; [done |]. apply elem_of_app. right.
      rewrite Hproto. apply list_elem_of_here.
    + rewrite IH.
      destruct (decide ("__proto__" ∈ name <$> toolDefinitions)) as [Hin | Hnin].
      * rewrite decide_True; [done |]. apply elem_of_app. by left.
      * rewrite decide_False; [done |].
        intros [Hin | Hin%list_elem_of_singleton]%elem_of_app; congruence.
Qed.



(** C7: [canHandleResource] resolves to [true] when [getToolResourceDetails]
    returns for the URI and to [false] when it throws, whatever it throws; the
    thrown value is not looked at, and [canHandleResource] itself never
    throws. *)
Theorem canHandleResource_probe {T : Type} `{PostmanTool T} (this : T)
    (resourceUri : string) (w : World) :
  canHandleResource this resourceUri w =
    match getToolResourceDetails this resourceUri w with
    | (w', Return _) => (w', Return true)
    | (w', Throw _) => (w', Return false)
    end ∧
  ∃ b : bool, (canHandleResource this resourceUri w).2 = Return b.
Proof.
  unfold canHandleResource. run_M.
  destruct (getToolResourceDetails this resourceUri w) as [w' [details | e]]; simpl;
    split; by eauto.
Qed.

(** C8: the base class lists no resource, and its [getToolResourceDetails]
    throws, for every URI, an [InvalidRequest] error whose message is
    ['Resource '], the URI, [' cannot be handled by this tool']; hence its
    [canHandleResource] answers [false] for every URI. *)
Theorem default_resource_hooks (this : BasePostmanTool) (resourceUri : string) (w : World) :
  listToolResources this w = (w, Return []) ∧
  getToolResourceDetails this resourceUri w =
    (w, Throw (Mcp (new_McpError InvalidRequest
       (JStr ("Resource " ++ resourceUri ++ " cannot be handled by this tool"))))) ∧
  canHandleResource this resourceUri w = (w, Return false).
Proof. by repeat split. Qed.

(** The documentation's examples: two definitions give two entries, a
    repeated name gives one, a definition named [__proto__] gives none but
    the prototype, and a class whose hook succeeds can handle. *)
Example getToolMappings_a_b :
  getToolMappings example_tool empty_world =
    (empty_world,
     Return {| own := {[ "a" := example_tool; "b" := example_tool ]}; prototype := None |}).
Proof.
  unfold getToolMappings, assign_mappings, set_property. run_M.
  by rewrite (insert_insert_ne _ "b" "a") by discriminate.
Qed.

Example assign_mappings_repeated_name :
  assign_mappings example_tool [tool_a; tool_b; tool_a] =
    assign_mappings example_tool [tool_a; tool_b].
Proof.
  unfold assign_mappings, set_property. simpl.
  rewrite (insert_insert_ne _ "a" "b") by discriminate.
  by rewrite insert_insert_eq.
Qed.

Example assign_mappings_proto_name :
  assign_mappings example_tool [tool_a; tool_proto] =
    {| own := {[ "a" := example_tool ]}; prototype := Some example_tool |}.
Proof. reflexivity. Qed.

Example canHandleResource_overridden :
  canHandleResource example_tool "postman://collections/1" empty_world =
    (empty_world, Return true).
Proof. reflexivity. Qed.

(** ** More on the response interceptor *)

(** The statuses whose message is fixed, whatever the body says. *)
Lemma onRejected_body_status (error : AxiosError) (r : AxiosResponse) (w : World) :
  response error = Some r →
  status r ∉ [401; 403; 404; 429] →
  (onRejected error w).2 =
    Throw (Mcp
      (if decide (status r ∈ [400; 422])
       then new_McpError InvalidRequest
              (js_or (body_error_message r) (JStr "Invalid request parameters"))
       else new_McpError InternalError
              (js_or (body_error_message r) (JStr "Internal server error")))).
Proof.
  intros Hr Hs. unfold onRejected. run_M. rewrite Hr.
  destruct (decide (status r ∈ [400; 422])) as [Hin | Hout].
  - apply elem_of_cons in Hin as [-> | Hin]; [reflexivity |].
    apply list_elem_of_singleton in Hin as ->. reflexivity.
  - destruct (status r) as [| p | p]; try reflexivity.
    do 9 (destruct p as [p | p |]; try reflexivity);
      exfalso; first [apply Hs; set_solver | apply Hout; set_solver].
Qed.

(** X1: the rejection handler writes exactly one line to [console.error],
    made of the failure's code and message, and leaves every client alone,
    whatever the failure is. *)
Theorem onRejected_logs_once (error : AxiosError) (w : World) :
  (onRejected error w).1 =
    {| clients := clients w;
       console :=
         (console w ++
          [(ConsoleError,
            [JStr "Axios error:"; of_opt_string (code error); JStr (message error)])])%list |}.
Proof.
  unfold onRejected. run_M.
  destruct (response error) as [r |].
  - destruct (status r) as [| p | p]; try reflexivity.
    do 9 (destruct p as [p | p |]; try reflexivity).
  - by destruct (request error).
Qed.

Lemma js_or_truthy (a : JSValue) (fallback : string) :
  fallback ≠ "" → truthy (js_or a (JStr fallback)) = true.
Proof.
  intros Hf. unfold js_or. destruct (truthy a) eqn:Ha; [exact Ha |].
  simpl. by destruct (String.eqb_spec fallback "").
Qed.

(** X2: the message of the error the handler throws is never falsy: never
    [undefined], [null] or the empty string, whatever the response body
    holds. *)
Theorem onRejected_message_truthy (error : AxiosError) (w : World) :
  ∃ m : McpError,
    (onRejected error w).2 = Throw (Mcp m) ∧ truthy (mcp_message m) = true.
Proof.
  destruct (response error) as [r |] eqn:Hr.
  - destruct (decide (status r ∈ [401; 403; 404; 429])) as [Hin | Hout].
    + unfold onRejected. run_M. rewrite Hr.
      repeat (apply elem_of_cons in Hin as [-> | Hin]; [by eexists |]).
      by apply elem_of_nil in Hin.
    + eexists. split; [exact (onRejected_body_status error r w Hr Hout) |].
      destruct (decide (status r ∈ [400; 422])); simpl; by apply js_or_truthy.
  - eexists. split; [exact (onRejected_no_response error w Hr) |].
    by destruct (request error).
Qed.

(** X3: the kind of the thrown error is decided by the status alone: it is
    [InvalidRequest] exactly when the failure has a response whose status is
    400, 401, 403, 404, 422 or 429, and [InternalError] exactly when not. *)
Theorem onRejected_kind_by_status (error : AxiosError) (w : World) :
  ∃ m : McpError,
    (onRejected error w).2 = Throw (Mcp m) ∧
    (mcp_code m = InvalidRequest ↔
       ∃ r : AxiosResponse, response error = Some r ∧ status r ∈ invalid_request_statuses) ∧
    (mcp_code m = InternalError ↔
       ¬ ∃ r : AxiosResponse, response error = Some r ∧ status r ∈ invalid_request_statuses).
Proof.
  destruct (response error) as [r |] eqn:Hr.
  - destruct (decide (status r ∈ invalid_request_statuses)) as [Hs | Hs].
    + destruct (onRejected_listed_status error r w Hr Hs) as [msg Hmsg].
      eexists. split; [exact Hmsg |]. simpl. split; split; try done.
      * by exists r.
      * intros Hno. destruct Hno. by exists r.
    + eexists. split; [exact (onRejected_other_status error r w Hr Hs) |].
      simpl. split; split; try done.
      * intros (r' & [= <-] & Hin). done.
      * intros _ (r' & [= <-] & Hin). done.
  - eexists. split; [exact (onRejected_no_response error w Hr) |].
    simpl. split; split; try done.
    + intros (r' & Hr' & _). discriminate Hr'.
    + intros _ (r' & Hr' & _). discriminate Hr'.
Qed.

(** X4: a non-empty string under [error.message] of the body reaches the
    caller as it is, whatever else the body holds, for every status but 401,
    403, 404 and 429: as an [InvalidRequest] error for 400 and 422, as an
    [InternalError] for every other status. *)
Theorem body_message_verbatim (error : AxiosError) (r : AxiosResponse)
    (props eprops : gmap string JSValue) (s : string) (w : World) :
  response error = Some r →
  status r ∉ [401; 403; 404; 429] →
  data r = JObj props →
  props !! "error" = Some (JObj eprops) →
  eprops !! "message" = Some (JStr s) →
  s ≠ "" →
  (onRejected error w).2 =
    Throw (Mcp (new_McpError
      (if decide (status r ∈ [400; 422]) then InvalidRequest else InternalError)
      (JStr s))).
Proof.
  intros Hr Hs Hdata Herr Hmsg Hne.
  rewrite (onRejected_body_status error r w Hr Hs).
  assert (Hbody : body_error_message r = JStr s).
  { unfold body_error_message, opt_get. rewrite Hdata, Herr. simpl. by rewrite Hmsg. }
  rewrite Hbody. unfold js_or. simpl.
  destruct (String.eqb_spec s ""); [done |].
  by destruct (decide (status r ∈ [400; 422])).
Qed.

Lemma body_message_verbatim_witness :
  (onRejected (failed_with conflict_response) empty_world).2 =
    Throw (Mcp (new_McpError InternalError (JStr "already exists"))).
Proof.
  refine (body_message_verbatim (failed_with conflict_response) conflict_response
            conflict_props conflict_error_props "already exists" empty_world
            eq_refl _ eq_refl eq_refl eq_refl _).
  - simpl. intros Hin.
    repeat (apply elem_of_cons in Hin as [Heq | Hin]; [discriminate Heq |]).
    by apply elem_of_nil in Hin.
  - discriminate.
Defined.

(** X5: a body that holds no [error.message] gives the fallback of the
    status: a body that is no object (a string, [null], nothing at all), an
    object whose [error] is missing or no object, or an [error] object with no
    [message].  The fallback is ['Invalid request parameters'] for 400 and
    422 and ['Internal server error'] for every status but the six listed. *)
Theorem body_without_message (error : AxiosError) (r : AxiosResponse) (w : World) :
  response error = Some r →
  status r ∉ [401; 403; 404; 429] →
  (∀ props, data r ≠ JObj props) ∨
  (∃ props, data r = JObj props ∧ ∀ eprops, props !! "error" ≠ Some (JObj eprops)) ∨
  (∃ props eprops,
     data r = JObj props ∧ props !! "error" = Some (JObj eprops) ∧
     eprops !! "message" = None) →
  (onRejected error w).2 =
    Throw (Mcp
      (if decide (status r ∈ [400; 422])
       then new_McpError InvalidRequest (JStr "Invalid request parameters")
       else new_McpError InternalError (JStr "Internal server error"))).
Proof.
  intros Hr Hs Hbody.
  rewrite (onRejected_body_status error r w Hr Hs).
  assert (Hnone : body_error_message r = JUndefined).
  { unfold body_error_message, opt_get.
    destruct Hbody as [Hno | [(props & Hdata & Hno) | (props & eprops & Hdata & Herr & Hmsg)]].
    - destruct (data r) as [| | | | | |props]; try reflexivity. by destruct (Hno props).
    - rewrite Hdata. destruct (props !! "error") as [[| | | | | |eprops] |] eqn:Herr;
        try reflexivity.
      by destruct (Hno eprops).
    - rewrite Hdata, Herr. simpl. by rewrite Hmsg. }
  by rewrite Hnone.
Qed.

Lemma body_without_message_witness :
  (onRejected (failed_with gateway_page) empty_world).2 =
    Throw (Mcp (new_McpError InternalError (JStr "Internal server error"))) ∧
  (onRejected (failed_with malformed_response) empty_world).2 =
    Throw (Mcp (new_McpError InvalidRequest (JStr "Invalid request parameters"))).
Proof.
  assert (Hs : ∀ st : Z, st = 502 ∨ st = 400 → st ∉ [401; 403; 404; 429]).
  { intros st Hst Hin.
    repeat (apply elem_of_cons in Hin as [-> | Hin]; [destruct Hst; discriminate |]).
    by apply elem_of_nil in Hin. }
  split.
  - refine (body_without_message (failed_with gateway_page) gateway_page empty_world
              eq_refl (Hs 502 (or_introl eq_refl)) _).
    left. intros props Hdata. discriminate Hdata.
  - refine (body_without_message (failed_with malformed_response) malformed_response
              empty_world eq_refl (Hs 400 (or_intror eq_refl)) _).
    right. left. exists {[ "error" := JStr "malformed" ]}.
    split; [reflexivity |]. intros eprops Herr. discriminate Herr.
Defined.

(** ** More on the constructor *)

Lemma constructor_on_client (apiKey : option string) (options : PostmanToolOptions)
    (r : ClientRef) (w : World) :
  ∃ w' : World,
    constructor apiKey options (Some r) w = (w', Return {| client := r |}) ∧
    console w' = console w ∧
    (∀ r' : ClientRef, r' ≠ r → clients w' !! r' = clients w !! r') ∧
    clients w' !! r =
      (λ c, {| defaults := defaults c;
               request_interceptors :=
                 request_interceptors c ++ registered_request_hooks options;
               response_interceptors := response_interceptors c ++ [ErrorTranslation] |})
        <$> clients w !! r.
Proof.
  unfold constructor, registered_request_hooks. run_M.
  destruct (truthy_string (opt_acceptHeader options)) as [h |]; simpl;
    (eexists; split; [reflexivity |]); simpl;
    (split; [reflexivity |]); split.
  - intros r' Hne. by rewrite !lookup_alter_ne.
  - rewrite !lookup_alter_eq. destruct (clients w !! r) as [c |]; [| done].
    simpl. unfold add_response_interceptor, add_request_interceptor. simpl.
    by rewrite <- app_assoc.
  - intros r' Hne. by rewrite !lookup_alter_ne.
  - rewrite !lookup_alter_eq. by destruct (clients w !! r).
Qed.

(** X6: the constructor throws exactly when no client is supplied and the key
    is [null] or the empty string; in every other case, among them a supplied
    client with no key at all, it returns a tool. *)
Theorem constructor_throws_iff (apiKey : option string) (options : PostmanToolOptions)
    (existingClient : option ClientRef) (w : World) :
  ((∃ (w' : World) (e : Exception),
      constructor apiKey options existingClient w = (w', Throw e)) ↔
   existingClient = None ∧ (apiKey = None ∨ apiKey = Some "")) ∧
  ((∃ (w' : World) (tool : BasePostmanTool),
      constructor apiKey options existingClient w = (w', Return tool)) ↔
   is_Some existingClient ∨ ∃ key : string, apiKey = Some key ∧ key ≠ "").
Proof.
  destruct existingClient as [r |].
  - destruct (constructor_on_client apiKey options r w) as (w' & Hrun & _).
    split; split.
    + intros (w'' & e & Hthrow). rewrite Hrun in Hthrow. discriminate Hthrow.
    + intros [Hnone _]. discriminate Hnone.
    + intros _. by left.
    + intros _. by eexists _, _.
  - destruct apiKey as [key |]; [destruct (decide (key = "")) as [-> | Hkey] |].
    + split; split.
      * intros _. split; [done | by right].
      * intros _. by eexists _, _.
      * intros (w' & tool & Hret). discriminate Hret.
      * intros [[r Hr] | (key & [= <-] & Hkey)]; [discriminate Hr | done].
    + pose proof (constructor_creates key options w Hkey) as Hrun.
      split; split.
      * intros (w' & e & Hthrow). rewrite Hrun in Hthrow. discriminate Hthrow.
      * intros [_ [Hk | [= Hk]]]; [discriminate Hk | done].
      * intros _. right. by exists key.
      * intros _. by eexists _, _.
    + split; split.
      * intros _. split; [done | by left].
      * intros _. by eexists _, _.
      * intros (w' & tool & Hret). discriminate Hret.
      * intros [[r Hr] | (key & Hk & _)]; [discriminate Hr | discriminate Hk].
Qed.

(** X7: a construction that returns writes nothing to the console, leaves
    every client other than the tool's own as it was, removes no client and
    changes no client's defaults. *)
Theorem constructor_frame (apiKey : option string) (options : PostmanToolOptions)
    (existingClient : option ClientRef) (w w' : World) (tool : BasePostmanTool) :
  constructor apiKey options existingClient w = (w', Return tool) →
  console w' = console w ∧
  (∀ r : ClientRef, r ≠ client tool → clients w' !! r = clients w !! r) ∧
  (∀ (r : ClientRef) (c : AxiosInstance),
     clients w !! r = Some c →
     ∃ c' : AxiosInstance, clients w' !! r = Some c' ∧ defaults c' = defaults c).
Proof.
  intros Hrun.
  destruct existingClient as [r |].
  - destruct (constructor_on_client apiKey options r w) as (w1 & Hrun1 & Hcon & Hother & Hown).
    rewrite Hrun1 in Hrun. injection Hrun as <- <-. simpl.
    split; [exact Hcon |]. split; [exact Hother |].
    intros r' c Hc. destruct (decide (r' = r)) as [-> | Hne].
    + rewrite Hown, Hc. simpl. by eexists.
    + rewrite (Hother r' Hne). by exists c.
  - destruct apiKey as [key |]; [destruct (decide (key = "")) as [-> | Hkey] |];
      [discriminate Hrun | | discriminate Hrun].
    rewrite (constructor_creates key options w Hkey) in Hrun.
    injection Hrun as <- <-. simpl.
    split; [reflexivity |]. split.
    + intros r Hne. by rewrite lookup_insert_ne.
    + intros r c Hc. exists c. split; [| reflexivity].
      rewrite lookup_insert_ne; [exact Hc |].
      intros <-. pose proof (is_fresh (dom (clients w))) as Hfresh.
      apply Hfresh, elem_of_dom. by exists c.
Qed.

Lemma constructor_frame_witness :
  ∃ (w' : World) (tool : BasePostmanTool),
    constructor (Some "PMAK-1") {| opt_baseURL := None; opt_acceptHeader := None |}
      None shared_world = (w', Return tool) ∧
    console w' = [] ∧
    ∃ c' : AxiosInstance, clients w' !! 0%nat = Some c' ∧ defaults c' = bare_config.
Proof.
  assert (Hkey : "PMAK-1" ≠ "") by discriminate.
  pose proof (constructor_creates "PMAK-1"
                {| opt_baseURL := None; opt_acceptHeader := None |} shared_world Hkey) as Hrun.
  eexists _, _. split; [exact Hrun |].
  destruct (constructor_frame _ _ _ _ _ _ Hrun) as (Hcon & _ & Hkeep).
  split; [exact Hcon |].
  exact (Hkeep 0%nat shared_client eq_refl).
Defined.

(** X8: two tools built one after the other, each from an API key, never
    share a client: the second construction creates a client of its own and
    leaves the client of the first tool exactly as it was. *)
Theorem keyed_tools_have_own_clients (key1 key2 : string) (options1 options2 : PostmanToolOptions)
    (w : World) :
  key1 ≠ "" →
  key2 ≠ "" →
  ∃ (w1 w2 : World) (tool1 tool2 : BasePostmanTool),
    constructor (Some key1) options1 None w = (w1, Return tool1) ∧
    constructor (Some key2) options2 None w1 = (w2, Return tool2) ∧
    client tool1 ≠ client tool2 ∧
    is_Some (clients w1 !! client tool1) ∧
    clients w2 !! client tool1 = clients w1 !! client tool1.
Proof.
  intros Hkey1 Hkey2.
  pose proof (constructor_creates key1 options1 w Hkey1) as Hrun1.
  match type of Hrun1 with
  | _ = (?w1, _) => pose proof (constructor_creates key2 options2 w1 Hkey2) as Hrun2
  end.
  eexists _, _, _, _.
  split; [exact Hrun1 |]. split; [exact Hrun2 |].
  cbn [client clients].
  assert (Hin : fresh (dom (clients w)) ∈
                dom (<[fresh (dom (clients w)) :=
                   {| defaults :=
                        {| baseURL := Some (default "https://api.getpostman.com"
                                              (truthy_string (opt_baseURL options1)));
                           url := None;
                           headers := {[ "X-Api-Key" := key1;
                                         "Content-Type" := "application/json" ]};
                           timeout := Some 30000;
                           httpsAgent := Some {| rejectUnauthorized := false |} |};
                      request_interceptors := registered_request_hooks options1;
                      response_interceptors := [ErrorTranslation] |}]> (clients w))).
  { apply elem_of_dom. rewrite lookup_insert_eq. by eexists. }
  assert (Hne : ∀ X : gset nat, fresh (dom (clients w)) ∈ X → fresh (dom (clients w)) ≠ fresh X).
  { intros X HX Heq. apply (is_fresh X). by rewrite <- Heq. }
  split; [exact (Hne _ Hin) |].
  split; [rewrite lookup_insert_eq; by eexists |].
  rewrite lookup_insert_ne; [reflexivity |].
  intros Heq. exact (Hne _ Hin (eq_sym Heq)).
Qed.

Lemma keyed_tools_have_own_clients_witness :
  "PMAK-1" ≠ "" ∧ "PMAK-2" ≠ "" ∧
  ∃ (w1 w2 : World) (tool1 tool2 : BasePostmanTool),
    constructor (Some "PMAK-1") {| opt_baseURL := None; opt_acceptHeader := None |}
      None empty_world = (w1, Return tool1) ∧
    constructor (Some "PMAK-2") {| opt_baseURL := None; opt_acceptHeader := None |}
      None w1 = (w2, Return tool2) ∧
    client tool1 ≠ client tool2.
Proof.
  assert (Hkey1 : "PMAK-1" ≠ "") by discriminate.
  assert (Hkey2 : "PMAK-2" ≠ "") by discriminate.
  split; [exact Hkey1 |]. split; [exact Hkey2 |].
  destruct (keyed_tools_have_own_clients "PMAK-1" "PMAK-2"
              {| opt_baseURL := None; opt_acceptHeader := None |}
              {| opt_baseURL := None; opt_acceptHeader := None |}
              empty_world Hkey1 Hkey2)
    as (w1 & w2 & tool1 & tool2 & Hrun1 & Hrun2 & Hne & _).
  exists w1, w2, tool1, tool2. split; [exact Hrun1 |]. split; [exact Hrun2 | exact Hne].
Defined.

(** X9: two tools built on the same supplied client both hold that client,
    and the client collects the hooks of both: its request hooks are followed
    by those of the first and then of the second construction, its response
    interceptors by two error translations; its defaults stay.  On a client
    that had no request hook before, every request is then logged twice. *)
Theorem shared_client_collects_hooks (apiKey1 apiKey2 : option string)
    (options1 options2 : PostmanToolOptions) (r : ClientRef) (c : AxiosInstance) (w : World) :
  clients w !! r = Some c →
  ∃ (w1 w2 : World) (c2 : AxiosInstance),
    constructor apiKey1 options1 (Some r) w = (w1, Return {| client := r |}) ∧
    constructor apiKey2 options2 (Some r) w1 = (w2, Return {| client := r |}) ∧
    clients w2 !! r = Some c2 ∧
    defaults c2 = defaults c ∧
    request_interceptors c2 =
      (request_interceptors c ++ registered_request_hooks options1
         ++ registered_request_hooks options2)%list ∧
    response_interceptors c2 =
      (response_interceptors c ++ [ErrorTranslation; ErrorTranslation])%list ∧
    (request_interceptors c = [] →
     ∀ (config : AxiosRequestConfig) (w0 : World),
       console (outgoing_config c2 config w0).1 =
         (console w0 ++
          [(ConsoleLog, [JStr "Making request to:"; of_opt_string (url config)]);
           (ConsoleLog, [JStr "Making request to:"; of_opt_string (url config)])])%list).
Proof.
  intros Hc.
  destruct (constructor_on_client apiKey1 options1 r w) as (w1 & Hrun1 & _ & _ & Hown1).
  destruct (constructor_on_client apiKey2 options2 r w1) as (w2 & Hrun2 & _ & _ & Hown2).
  rewrite Hc in Hown1. simpl in Hown1. rewrite Hown1 in Hown2. simpl in Hown2.
  eexists w1, w2, _.
  split; [exact Hrun1 |]. split; [exact Hrun2 |]. split; [exact Hown2 |].
  simpl. split; [reflexivity |].
  split; [by rewrite <- app_assoc |].
  split; [by rewrite <- app_assoc |].
  intros Hnone config w0. unfold outgoing_config, registered_request_hooks. simpl.
  rewrite Hnone. simpl.
  destruct (truthy_string (opt_acceptHeader options1)),
           (truthy_string (opt_acceptHeader options2)); simpl; run_M;
    by rewrite <- app_assoc.
Qed.

Lemma shared_client_collects_hooks_witness :
  clients shared_world !! 0%nat = Some shared_client ∧
  ∃ (w1 w2 : World) (c2 : AxiosInstance),
    constructor (Some "PMAK-1") {| opt_baseURL := None; opt_acceptHeader := None |}
      (Some 0%nat) shared_world = (w1, Return {| client := 0%nat |}) ∧
    constructor None {| opt_baseURL := None; opt_acceptHeader := Some "text/csv" |}
      (Some 0%nat) w1 = (w2, Return {| client := 0%nat |}) ∧
    clients w2 !! 0%nat = Some c2 ∧
    request_interceptors c2 = [LogRequest; LogRequest; SetAccept "text/csv"] ∧
    response_interceptors c2 = [ErrorTranslation; ErrorTranslation].
Proof.
  split; [reflexivity |].
  destruct (shared_client_collects_hooks (Some "PMAK-1") None
              {| opt_baseURL := None; opt_acceptHeader := None |}
              {| opt_baseURL := None; opt_acceptHeader := Some "text/csv" |}
              0%nat shared_client shared_world eq_refl)
    as (w1 & w2 & c2 & Hrun1 & Hrun2 & Hc2 & _ & Hreq & Hresp & _).
  exists w1, w2, c2.
  split; [exact Hrun1 |]. split; [exact Hrun2 |]. split; [exact Hc2 |].
  split; [exact Hreq | exact Hresp].
Defined.

(** X10: on a client the constructor created, a request is logged once, with
    its URL, and leaves with the [Accept] header set to [options.acceptHeader]
    when that is a non-empty string, whatever [Accept] it had; every other
    part of its configuration, and all of it without the option, is the one
    it came with. *)
Theorem new_client_outgoing (apiKey : string) (options : PostmanToolOptions)
    (w w0 : World) (config : AxiosRequestConfig) :
  apiKey ≠ "" →
  ∃ (w' : World) (tool : BasePostmanTool) (c : AxiosInstance),
    constructor (Some apiKey) options None w = (w', Return tool) ∧
    clients w' !! client tool = Some c ∧
    outgoing_config c config w0 =
      ({| clients := clients w0;
          console :=
            (console w0 ++
             [(ConsoleLog, [JStr "Making request to:"; of_opt_string (url config)])])%list |},
       Return
         match opt_acceptHeader options with
         | Some acceptHeader =>
             if decide (acceptHeader = "") then config
             else set_header "Accept" acceptHeader config
         | None => config
         end).
Proof.
  intros Hkey. eexists _, _, _.
  split; [exact (constructor_creates apiKey options w Hkey) |].
  split; [apply lookup_insert_eq |].
  unfold outgoing_config, registered_request_hooks. simpl.
  destruct (opt_acceptHeader options) as [h |]; [| reflexivity].
  destruct (decide (h = "")) as [-> | Hh]; [reflexivity |].
  by rewrite (truthy_string_Some h Hh).
Qed.

Lemma new_client_outgoing_witness :
  "PMAK-1" ≠ "" ∧
  ∃ (w' : World) (tool : BasePostmanTool) (c : AxiosInstance),
    constructor (Some "PMAK-1") {| opt_baseURL := None; opt_acceptHeader := Some "text/csv" |}
      None empty_world = (w', Return tool) ∧
    clients w' !! client tool = Some c ∧
    outgoing_config c bare_config empty_world =
      ({| clients := ∅;
          console := [(ConsoleLog, [JStr "Making request to:"; JStr "/collections"])] |},
       Return (set_header "Accept" "text/csv" bare_config)).
Proof.
  assert (Hkey : "PMAK-1" ≠ "") by discriminate.
  split; [exact Hkey |].
  exact (new_client_outgoing "PMAK-1"
           {| opt_baseURL := None; opt_acceptHeader := Some "text/csv" |}
           empty_world empty_world bare_config Hkey).
Defined.

(** ** More on tool discovery *)

(** X11: [getToolMappings] adds no failure of its own and translates none: it
    throws exactly when [getToolDefinitions] throws, the same value in the
    same state, for every class. *)
Theorem getToolMappings_throws_iff {T : Type} `{PostmanTool T} (this : T)
    (w w' : World) (e : Exception) :
  getToolMappings this w = (w', Throw e) ↔ getToolDefinitions this w = (w', Throw e).
Proof.
  unfold getToolMappings. run_M.
  destruct (getToolDefinitions this w) as [w1 [toolDefinitions | e1]]; simpl.
  - split; intros Heq; discriminate Heq.
  - split; intros [= -> ->]; reflexivity.
Qed.

(** X12: the mapping depends on the set of names only: two lists of
    definitions with the same names, in any order and with any repetitions
    and metadata, give the same mapping, own keys and prototype alike. *)
Theorem assign_mappings_names_only {T : Type} (this : T)
    (toolDefinitions1 toolDefinitions2 : list ToolDefinition) :
  (∀ key : string, key ∈ name <$> toolDefinitions1 ↔ key ∈ name <$> toolDefinitions2) →
  assign_mappings this toolDefinitions1 = assign_mappings this toolDefinitions2.
Proof.
  intros Hnames.
  assert (Hown : own (assign_mappings this toolDefinitions1) =
                 own (assign_mappings this toolDefinitions2)).
  { apply map_eq. intros key. rewrite !assign_mappings_own.
    destruct (decide (key ∈ name <$> toolDefinitions1 ∧ key ≠ "__proto__")) as [[Hin Hk] | Hno].
    - rewrite decide_True; [done |]. split; [by apply Hnames | done].
    - rewrite decide_False; [done |]. intros [Hin Hk]. apply Hno. split; [by apply Hnames | done]. }
  assert (Hproto : prototype (assign_mappings this toolDefinitions1) =
                   prototype (assign_mappings this toolDefinitions2)).
  { rewrite !assign_mappings_prototype.
    destruct (decide ("__proto__" ∈ name <$> toolDefinitions1)) as [Hin | Hnin].
    - rewrite decide_True; [done |]. by apply Hnames.
    - rewrite decide_False; [done |]. intros Hin. by apply Hnin, Hnames. }
  destruct (assign_mappings this toolDefinitions1), (assign_mappings this toolDefinitions2).
  simpl in Hown, Hproto. by subst.
Qed.

Lemma assign_mappings_names_only_witness :
  assign_mappings example_tool
    [tool_a; tool_proto; tool_b; {| name := "a"; definition_metadata := JStr "again" |}] =
  assign_mappings example_tool [tool_b; tool_a; tool_proto].
Proof.
  apply assign_mappings_names_only. intros key. simpl.
  rewrite !elem_of_cons, !elem_of_nil. tauto.
Defined.

(** X13: the mapping has at most as many own keys as there are definitions,
    and exactly as many if and only if no two definitions share a name and
    none is named [__proto__]; it is the untouched [{}] only for the empty
    list. *)
Theorem assign_mappings_size {T : Type} (this : T) (toolDefinitions : list ToolDefinition) :
  (size (own (assign_mappings this toolDefinitions)) ≤ length toolDefinitions)%nat ∧
  (size (own (assign_mappings this toolDefinitions)) = length toolDefinitions ↔
   NoDup (name <$> toolDefinitions) ∧ "__proto__" ∉ name <$> toolDefinitions) ∧
  (assign_mappings this toolDefinitions = empty_object ↔ toolDefinitions = []).
Proof.
  assert (Hsize :
    (size (own (assign_mappings this toolDefinitions)) ≤ length toolDefinitions)%nat ∧
    (size (own (assign_mappings this toolDefinitions)) = length toolDefinitions ↔
     NoDup (name <$> toolDefinitions) ∧ "__proto__" ∉ name <$> toolDefinitions)).
  { induction toolDefinitions as [| tool toolDefinitions [IHle IHeq]] using rev_ind.
    - split; [done |]. split; [| done].
      intros _. split; [constructor | apply not_elem_of_nil].
    - rewrite assign_mappings_snoc, length_app, fmap_app, NoDup_app. simpl.
      unfold set_property.
      destruct (decide (name tool = "__proto__")) as [Hproto | Hproto]; simpl.
      + split; [lia |]. split; [lia |].
        intros [_ Hnot]. exfalso. apply Hnot, elem_of_app. right.
        rewrite Hproto. apply list_elem_of_here.
      + rewrite map_size_insert, assign_mappings_own.
        destruct (decide (name tool ∈ name <$> toolDefinitions ∧ name tool ≠ "__proto__"))
          as [[Hin _] | Hnin]; simpl.
        * split; [lia |]. split; [lia |].
          intros [(_ & Hdisj & _) _]. exfalso.
          apply (Hdisj (name tool) Hin). apply list_elem_of_here.
        * assert (Hfresh : name tool ∉ name <$> toolDefinitions).
          { intros Hin. by apply Hnin. }
          split; [lia |]. split.
          -- intros Heq. assert (Hprev : size (own (assign_mappings this toolDefinitions))
                                         = length toolDefinitions) by lia.
             apply IHeq in Hprev as [Hnodup Hnot]. split.
             ++ split; [exact Hnodup |]. split; [| apply NoDup_singleton].
                intros key Hkey Hone%list_elem_of_singleton. congruence.
             ++ intros [Hin | Hin%list_elem_of_singleton]%elem_of_app; [by apply Hnot |].
                congruence.
          -- intros [(Hnodup & _ & _) Hnot].
             assert (Hprev : size (own (assign_mappings this toolDefinitions))
                             = length toolDefinitions).
             { apply IHeq. split; [exact Hnodup |].
               intros Hin. apply Hnot, elem_of_app. by left. }
             lia. }
  destruct Hsize as [Hle Heq]. split; [exact Hle |]. split; [exact Heq |].
  split.
  - intros Hempty. destruct toolDefinitions as [| tool toolDefinitions]; [done |].
    exfalso.
    destruct (decide (name tool = "__proto__")) as [Hproto | Hproto].
    + pose proof (assign_mappings_prototype this (tool :: toolDefinitions)) as Hp.
      rewrite Hempty in Hp. rewrite decide_True in Hp; [discriminate Hp |].
      simpl. rewrite Hproto. apply list_elem_of_here.
    + pose proof (assign_mappings_own this (tool :: toolDefinitions) (name tool)) as Ho.
      rewrite Hempty in Ho. rewrite decide_True in Ho.
      * simpl in Ho. by rewrite lookup_empty in Ho.
      * split; [apply list_elem_of_here | done].
  - by intros ->.
Qed.

Example assign_mappings_size_proto :
  size (own (assign_mappings example_tool [tool_proto])) = 0%nat ∧
  prototype (assign_mappings example_tool [tool_proto]) = Some example_tool.
Proof. split; reflexivity. Qed.
